(** * A shallow embedding of zc/ngi/generator.py

    The module bridges a Python 2 generator ("protocol routine") to the
    push-style connection handler interface of zc.ngi:
    - [Handler] (the [handler] decorator) turns a generator function into
      something that, given a connection, builds a [ConnectionHandler];
    - [ConnectionHandler] primes the generator, registers itself with the
      connection and turns [handle_input], [handle_close] and
      [handle_exception] events into [send] / [throw] calls.

    Python objects (data chunks, connections, close reasons, instances) are
    modelled as [pyobj]; exceptions as [exc]; a generator as an abstract
    resumption function [step] over a state type [S] together with
    Python 2's generator protocol (an exhausted generator raises
    StopIteration on [send] and re-raises the thrown exception on
    [throw]).  Every call this module makes on an outside object
    (the connection adapter, the generator function, [setHandler],
    [close]) is recorded in a call log. *)

From Stdlib Require Import List Arith Lia.
Import ListNotations.

(** ** Python values and exceptions *)

Inductive pyobj : Type :=
| PyNone : pyobj
| PyObj (n : nat) : pyobj.

Definition pyobj_eq_dec (x y : pyobj) : {x = y} + {x <> y}.
Proof. decide equality; apply Nat.eq_dec. Defined.

Inductive exc : Type :=
| StopIteration : exc
| GeneratorExit (arg : pyobj) : exc
| AttributeError : exc
| IndexError : exc
| Error (n : nat) : exc.

Definition exc_eq_dec (x y : exc) : {x = y} + {x <> y}.
Proof. decide equality; first [apply pyobj_eq_dec | apply Nat.eq_dec]. Defined.

(** The outcome of a Python call: a returned value or a raised exception. *)
Inductive result (A : Type) : Type :=
| Ok (a : A) : result A
| Exn (e : exc) : result A.
Arguments Ok {A} a.
Arguments Exn {A} e.

(** Calls made by this module on objects it does not own. *)
Inductive call : Type :=
| CallAdapter (c : pyobj)          (** [self.connection_adapter(c)] *)
| CallFunc (args : list pyobj)     (** [self.func( *args)] *)
| SetHandler (c : pyobj)           (** [c.setHandler(self)] *)
| Close (c : pyobj).               (** [c.close()] *)

(** ** Generators (Python 2 semantics) *)

(** What the generator's frame receives when it is resumed at its
    suspension point: a value from [send] ([next()] is [send(None)]), or an
    exception from [throw]. *)
Inductive resume : Type :=
| RSend (v : pyobj)
| RThrow (e : exc).

(** What the frame does next: suspend at a [yield], return, or raise. *)
Inductive outcome (S : Type) : Type :=
| Yield (y : pyobj) (s : S)
| Return
| Raise (e : exc).
Arguments Yield {S} y s.
Arguments Return {S}.
Arguments Raise {S} e.

(** A generator object: suspended in a frame state, or exhausted. *)
Inductive gstate (S : Type) : Type :=
| Suspended (s : S)
| Exhausted.
Arguments Suspended {S} s.
Arguments Exhausted {S}.

Section Generator.
Context {S : Type} (step : S -> resume -> outcome S).

(** Resume a suspended frame; a [return] surfaces as StopIteration and
    any exit leaves the generator exhausted. *)
Definition gen_resume (s : S) (r : resume) : gstate S * result pyobj :=
  match step s r with
  | Yield y s' => (Suspended s', Ok y)
  | Return => (Exhausted, Exn StopIteration)
  | Raise e => (Exhausted, Exn e)
  end.

(** [gen.send(v)] *)
Definition gen_send (g : gstate S) (v : pyobj) : gstate S * result pyobj :=
  match g with
  | Suspended s => gen_resume s (RSend v)
  | Exhausted => (Exhausted, Exn StopIteration)
  end.

(** [gen.next()] *)
Definition gen_next (g : gstate S) : gstate S * result pyobj :=
  gen_send g PyNone.

(** [gen.throw(e.__class__, e)] *)
Definition gen_throw (g : gstate S) (e : exc) : gstate S * result pyobj :=
  match g with
  | Suspended s => gen_resume s (RThrow e)
  | Exhausted => (Exhausted, Exn e)
  end.
End Generator.

(** ** ConnectionHandler *)

(** The instance dictionary of a [ConnectionHandler]: its only attribute is
    [gen], which [__init__] assigns only when priming did not stop. *)
Record ConnectionHandler (S : Type) : Type := mkCH { gen : option (gstate S) }.
Arguments mkCH {S} gen.
Arguments gen {S} c.

(** A method call: the updated instance, the calls it made, its result. *)
Definition mresult (S A : Type) : Type :=
  ConnectionHandler S * list call * result A.

Section Driver.
Context {S : Type} (step : S -> resume -> outcome S).

(** Attribute lookup [self.gen]. *)
Definition lookup_gen (self : ConnectionHandler S) : result (gstate S) :=
  match gen self with
  | Some g => Ok g
  | None => Exn AttributeError
  end.

(** [ConnectionHandler.__init__(self, gen, connection)] on a fresh
    instance (no attributes).  An exception other than StopIteration out
    of [gen.next()] propagates out of the constructor. *)
Definition ConnectionHandler_init (g : gstate S) (connection : pyobj)
  : mresult S unit :=
  let fresh := mkCH None in
  match gen_next step g with
  | (_, Exn StopIteration) => (fresh, [], Ok tt)
  | (_, Exn e) => (fresh, [], Exn e)
  | (g', Ok _) => (mkCH (Some g'), [SetHandler connection], Ok tt)
  end.

(** [handle_input(self, connection, data)] *)
Definition handle_input (self : ConnectionHandler S) (connection data : pyobj)
  : mresult S unit :=
  match lookup_gen self with
  | Exn e => (self, [], Exn e)
  | Ok g =>
      let (g', r) := gen_send step g data in
      let self' := mkCH (Some g') in
      match r with
      | Ok _ => (self', [], Ok tt)
      | Exn StopIteration => (self', [Close connection], Ok tt)
      | Exn e => (self', [], Exn e)
      end
  end.

(** [handle_close(self, connection, reason)] *)
Definition handle_close (self : ConnectionHandler S) (connection reason : pyobj)
  : mresult S unit :=
  match lookup_gen self with
  | Exn e => (self, [], Exn e)
  | Ok g =>
      let (g', r) := gen_throw step g (GeneratorExit reason) in
      let self' := mkCH (Some g') in
      match r with
      | Ok _ => (self', [], Ok tt)
      | Exn (GeneratorExit _) | Exn StopIteration => (self', [], Ok tt)
      | Exn e => (self', [], Exn e)
      end
  end.

(** [handle_exception(self, connection, exception)] *)
Definition handle_exception (self : ConnectionHandler S) (connection : pyobj)
  (exception : exc) : mresult S unit :=
  match lookup_gen self with
  | Exn e => (self, [], Exn e)
  | Ok g =>
      let (g', r) := gen_throw step g exception in
      let self' := mkCH (Some g') in
      match r with
      | Ok _ => (self', [], Ok tt)
      | Exn e => (self', [], Exn e)
      end
  end.
End Driver.

(** ** Handler (the decorator's product) *)

(** [args[-1]] on a tuple. *)
Definition py_last (args : list pyobj) : result pyobj :=
  match rev args with
  | [] => Exn IndexError
  | x :: _ => Ok x
  end.

(** A generator function returns a fresh generator whose frame state
    (before its first [next()]) is given by [func]; [connection_adapter] is
    [None] or a one-argument function. *)
Record Handler (S : Type) : Type := mkHandler {
  func : list pyobj -> S;
  connection_adapter : option (pyobj -> pyobj)
}.
Arguments mkHandler {S} func connection_adapter.
Arguments func {S} h args.
Arguments connection_adapter {S} h.

(** The value of an attribute access [obj.attr] that hits a [Handler]. *)
Inductive attr (S : Type) : Type :=
| AttrHandler (h : Handler S)
| AttrBound (f : pyobj -> list call * result (ConnectionHandler S)).
Arguments AttrHandler {S} h.
Arguments AttrBound {S} f.

Section Adapter.
Context {S : Type} (step : S -> resume -> outcome S).

(** [ConnectionHandler(gen, connection)]: the calls made, and the new
    instance or the exception out of [__init__]. *)
Definition new_ConnectionHandler (g : gstate S) (connection : pyobj)
  : list call * result (ConnectionHandler S) :=
  match ConnectionHandler_init step g connection with
  | (self, tr, Ok _) => (tr, Ok self)
  | (_, tr, Exn e) => (tr, Exn e)
  end.

(** [Handler.__call__(self, *args)] *)
Definition Handler_call (h : Handler S) (args : list pyobj)
  : list call * result (ConnectionHandler S) :=
  let adapted :=
    match connection_adapter h with
    | None => Ok (args, [])
    | Some adapter =>
        match py_last args with
        | Exn e => Exn e
        | Ok c => Ok (removelast args ++ [adapter c], [CallAdapter c])
        end
    end in
  match adapted with
  | Exn e => ([], Exn e)
  | Ok (args', tr0) =>
      let g := Suspended (func h args') in
      let tr1 := tr0 ++ [CallFunc args'] in
      match py_last args' with
      | Exn e => (tr1, Exn e)
      | Ok c =>
          let (tr2, r) := new_ConnectionHandler g c in
          (tr1 ++ tr2, r)
      end
  end.

(** [Handler.__get__(self, inst, class_)]; [inst] is [None] for an access
    through the class. *)
Definition Handler_get (h : Handler S) (inst : option pyobj) : attr S :=
  match inst with
  | None => AttrHandler h
  | Some o =>
      match connection_adapter h with
      | Some adapter =>
          AttrBound (fun connection0 =>
            let connection := adapter connection0 in
            let (tr, r) :=
              new_ConnectionHandler (Suspended (func h [o; connection]))
                connection in
            ([CallAdapter connection0; CallFunc [o; connection]] ++ tr, r))
      | None =>
          AttrBound (fun connection =>
            let (tr, r) :=
              new_ConnectionHandler (Suspended (func h [o; connection]))
                connection in
            ([CallFunc [o; connection]] ++ tr, r))
      end
  end.
End Adapter.

(** ** Event dispatch *)

(** The events a connection delivers to its handler. *)
Inductive event : Type :=
| EvInput (connection data : pyobj)
| EvClose (connection reason : pyobj)
| EvException (connection : pyobj) (exception : exc).

Section Dispatch.
Context {S : Type} (step : S -> resume -> outcome S).

Definition dispatch (self : ConnectionHandler S) (ev : event) : mresult S unit :=
  match ev with
  | EvInput c d => handle_input step self c d
  | EvClose c r => handle_close step self c r
  | EvException c e => handle_exception step self c e
  end.

(** Deliver a sequence of events, whatever each handler call returns;
    the calls made are collected in order. *)
Fixpoint run (self : ConnectionHandler S) (evs : list event)
  : ConnectionHandler S * list call :=
  match evs with
  | [] => (self, [])
  | ev :: evs' =>
      let '(self', tr, _) := dispatch self ev in
      let (self'', tr') := run self' evs' in
      (self'', tr ++ tr')
  end.

(** Construct a handler for a fresh generator in frame state [s0] on
    [connection0], then deliver [evs] to it. *)
Definition session (s0 : S) (connection0 : pyobj) (evs : list event)
  : ConnectionHandler S * list call :=
  let '(self, tr, _) := ConnectionHandler_init step (Suspended s0) connection0 in
  let (self', tr') := run self evs in
  (self', tr ++ tr').

(** Feed [datas] to [handle_input] in order, on one connection. *)
Definition feed (self : ConnectionHandler S) (connection : pyobj)
  (datas : list pyobj) : ConnectionHandler S * list call :=
  run self (map (EvInput connection) datas).
End Dispatch.

(** ** Concrete protocol routines used at concrete inputs *)

(** [def r(c): return; yield] : stops on its first [next()]. *)
Definition r_immediate (s : nat) (r : resume) : outcome nat := Return.

(** [def r(c): try: yield
               except: pass] *)
Definition r_once (s : nat) (r : resume) : outcome nat :=
  match s, r with
  | 0, RSend _ => Yield PyNone 1
  | 0, RThrow e => Raise e
  | _, _ => Return
  end.

(** [def r(c): try: yield
                except GeneratorExit: raise GeneratorExit(7)] *)
Definition r_swap (s : nat) (r : resume) : outcome nat :=
  match s, r with
  | 0, RSend _ => Yield PyNone 1
  | 0, RThrow e => Raise e
  | 1, RThrow (GeneratorExit _) => Raise (GeneratorExit (PyObj 7))
  | 1, RThrow e => Raise e
  | _, _ => Return
  end.

(** [def r(c): seen = []
               while 1: seen.append((yield))] ; the state is [seen]. *)
Definition r_echo (seen : list pyobj) (r : resume) : outcome (list pyobj) :=
  match r with
  | RSend v => Yield PyNone (seen ++ [v])
  | RThrow e => Raise e
  end.

(** ** Helper lemmas *)

Lemma handle_close_no_calls {S} (step : S -> resume -> outcome S) self c reason :
  snd (fst (handle_close step self c reason)) = [].
Proof.
  unfold handle_close, lookup_gen.
  destruct (gen self) as [g|]; [|reflexivity].
  destruct (gen_throw step g (GeneratorExit reason)) as [g' [y|e]];
    [reflexivity|destruct e; reflexivity].
Qed.

Lemma handle_exception_no_calls {S} (step : S -> resume -> outcome S) self c e :
  snd (fst (handle_exception step self c e)) = [].
Proof.
  unfold handle_exception, lookup_gen.
  destruct (gen self) as [g|]; [|reflexivity].
  destruct (gen_throw step g e) as [g' [y|e']]; reflexivity.
Qed.

Lemma handle_input_calls {S} (step : S -> resume -> outcome S) self c d :
  snd (fst (handle_input step self c d)) = [] \/
  (snd (fst (handle_input step self c d)) = [Close c] /\
   exists g g', gen self = Some g /\ gen_send step g d = (g', Exn StopIteration)).
Proof.
  unfold handle_input, lookup_gen.
  destruct (gen self) as [g|] eqn:Hg; [|left; reflexivity].
  destruct (gen_send step g d) as [g' [y|e]] eqn:Hs; [left; reflexivity|].
  destruct e; try (left; reflexivity).
  right; split; [reflexivity|]. exists g, g'; auto.
Qed.

Lemma ConnectionHandler_init_calls {S} (step : S -> resume -> outcome S) g c :
  snd (fst (ConnectionHandler_init step g c)) = [] \/
  snd (fst (ConnectionHandler_init step g c)) = [SetHandler c].
Proof.
  unfold ConnectionHandler_init.
  destruct (gen_next step g) as [g' [y|e]]; [right; reflexivity|].
  destruct e; left; reflexivity.
Qed.

(** ** Claims *)

(** C1: constructing a [ConnectionHandler] registers it with the connection
    ([setHandler]) exactly when the priming [next()] reaches a [yield]; when
    the routine does not reach a [yield], the constructor makes no call on the
    connection (nor on anything else). *)
Theorem C1_register_iff_primed :
  forall {S} (step : S -> resume -> outcome S) (s0 : S) (c : pyobj),
    let '(_, tr, _) := ConnectionHandler_init step (Suspended s0) c in
    (In (SetHandler c) tr <-> exists y s, step s0 (RSend PyNone) = Yield y s) /\
    ((forall y s, step s0 (RSend PyNone) <> Yield y s) -> tr = []).
Proof.
  intros S step s0 c.
  unfold ConnectionHandler_init, gen_next, gen_send, gen_resume.
  destruct (step s0 (RSend PyNone)) as [y s| |e] eqn:Hst.
  - split.
    + split; [intros _; eauto | intros _; left; reflexivity].
    + intros Hn. exfalso. exact (Hn y s eq_refl).
  - split; [split; [intros []| intros (? & ? & Hx); discriminate] | reflexivity].
  - destruct e; (split; [split; [intros []| intros (? & ? & Hx); discriminate]
                        | reflexivity]).
Qed.




(** C3 as stated fails: a routine that answers the cancellation
    [GeneratorExit(3)] by raising a different failure, [GeneratorExit(7)],
    has that failure swallowed by [handle_close], which returns normally. *)
Lemma C3_other_generator_exit_swallowed :
  gen_throw r_swap (Suspended 1) (GeneratorExit (PyObj 3))
    = (Exhausted, Exn (GeneratorExit (PyObj 7))) /\
  GeneratorExit (PyObj 7) <> GeneratorExit (PyObj 3) /\
  handle_close r_swap (mkCH (Some (Suspended 1))) (PyObj 0) (PyObj 3)
    = (mkCH (Some Exhausted), [], Ok tt).
Proof.
  split; [reflexivity|split; [discriminate|reflexivity]].
Qed.

(** C3 (amended): delivering a close event with [reason] to a handler whose
    routine is suspended throws [GeneratorExit(reason)] into it and makes no
    call on the connection; the call returns normally when the routine
    suspends again, returns, or raises any GeneratorExit (the thrown one or
    another) or StopIteration; every other exception propagates unchanged. *)
Theorem C3_close_event_outcomes :
  forall {S} (step : S -> resume -> outcome S) (s : S) (c reason : pyobj),
    let '(_, tr, r) := handle_close step (mkCH (Some (Suspended s))) c reason in
    tr = [] /\
    r = match step s (RThrow (GeneratorExit reason)) with
        | Yield _ _ | Return => Ok tt
        | Raise (GeneratorExit _) | Raise StopIteration => Ok tt
        | Raise e => Exn e
        end.
Proof.
  intros S step s c reason.
  unfold handle_close, lookup_gen, gen_throw, gen_resume; cbn.
  destruct (step s (RThrow (GeneratorExit reason))) as [y s'| |e];
    [split; reflexivity | split; reflexivity | destruct e; split; reflexivity].
Qed.

(** C4: the sibling handlers both catch StopIteration ([handle_input]
    closes the connection, [handle_close] returns normally), but
    [handle_exception] does not: when [r_once] answers the thrown exception
    by returning, StopIteration escapes to the caller and the connection is
    not closed. *)
Lemma C4_return_not_relayed_like_input :
  handle_exception r_once (mkCH (Some (Suspended 1))) (PyObj 0) (Error 5)
    = (mkCH (Some Exhausted), [], Exn StopIteration) /\
  handle_input r_once (mkCH (Some (Suspended 1))) (PyObj 0) (PyObj 5)
    = (mkCH (Some Exhausted), [Close (PyObj 0)], Ok tt) /\
  handle_close r_once (mkCH (Some (Suspended 1))) (PyObj 0) (PyObj 5)
    = (mkCH (Some Exhausted), [], Ok tt).
Proof.
  split; [reflexivity|split; reflexivity].
Qed.

(** [handle_exception] on a suspended routine, case by case: it throws the
    exception into the routine and catches nothing; a [yield] keeps the
    routine suspended and returns normally, a return surfaces as
    StopIteration to the caller, any other exception reaches the caller
    unchanged; no call is made on the connection. *)
Theorem handle_exception_cases :
  forall {S} (step : S -> resume -> outcome S) (s : S) (c : pyobj) (e : exc),
    handle_exception step (mkCH (Some (Suspended s))) c e
    = match step s (RThrow e) with
      | Yield _ s' => (mkCH (Some (Suspended s')), [], Ok tt)
      | Return => (mkCH (Some Exhausted), [], Exn StopIteration)
      | Raise e' => (mkCH (Some Exhausted), [], Exn e')
      end.
Proof.
  intros S step s c e.
  unfold handle_exception, lookup_gen, gen_throw, gen_resume; cbn.
  destruct (step s (RThrow e)); reflexivity.
Qed.


Lemma py_last_snoc (pre : list pyobj) (c : pyobj) : py_last (pre ++ [c]) = Ok c.
Proof. unfold py_last. rewrite rev_app_distr. reflexivity. Qed.



(** C7: accessing a [Handler] through the class returns the handler itself;
    accessing it through an instance [o] returns a one-argument function
    that, on a connection [c], behaves exactly as calling the handler with
    [(o, c)] (adapter applied if configured, generator function called with
    [o] and the connection, [ConnectionHandler] built the same way). *)
Theorem C7_get_class_and_instance :
  forall {S} (step : S -> resume -> outcome S) (h : Handler S) (o : pyobj),
    Handler_get step h None = AttrHandler h /\
    exists F, Handler_get step h (Some o) = AttrBound F /\
      forall c, F c = Handler_call step h [o; c].
Proof.
  intros S step [f [t|]] o; (split; [reflexivity|]);
    (eexists; split; [reflexivity|]); intros c;
    unfold Handler_call; cbn;
    destruct (new_ConnectionHandler _ _ _); reflexivity.
Qed.

(** The frame state reached by resuming a routine with [send] on each datum
    of [datas] in order, when each resume reaches a [yield]. *)
Definition resume_all {S} (step : S -> resume -> outcome S) (s : S)
  (datas : list pyobj) : S :=
  fold_left (fun s v => match step s (RSend v) with
                        | Yield _ s' => s'
                        | _ => s
                        end) datas s.

(** C6: if the routine suspends again on every [send], delivering the input
    events [datas] in order resumes it once per event, in delivery order,
    with exactly that event's data (the final frame state is the routine's
    steps folded over [datas]); each [handle_input] returns normally and no
    call is made on the connection, in particular no [close()]. *)
Theorem C6_inputs_resume_in_order :
  forall {S} (step : S -> resume -> outcome S) (s : S) (c : pyobj)
         (datas : list pyobj),
    (forall s' v, match step s' (RSend v) with Yield _ _ => True | _ => False end) ->
    feed step (mkCH (Some (Suspended s))) c datas
      = (mkCH (Some (Suspended (resume_all step s datas))), []) /\
    (forall s' d, snd (handle_input step (mkCH (Some (Suspended s'))) c d) = Ok tt).
Proof.
  intros S step s c datas Hsusp. split.
  - unfold feed, resume_all. revert s.
    induction datas as [|d datas IH]; intros s; [reflexivity|].
    cbn [map run fold_left dispatch].
    pose proof (Hsusp s d) as Hd.
    unfold handle_input, lookup_gen, gen_send, gen_resume; cbn [gen].
    destruct (step s (RSend d)) as [y s'| |e]; [|destruct Hd|destruct Hd].
    rewrite IH. reflexivity.
  - intros s' d. pose proof (Hsusp s' d) as Hd.
    unfold handle_input, lookup_gen, gen_send, gen_resume; cbn [gen].
    destruct (step s' (RSend d)); [reflexivity|destruct Hd|destruct Hd].
Qed.

Lemma C6_inputs_resume_in_order_witness :
  feed r_echo (mkCH (Some (Suspended []))) (PyObj 0) [PyObj 1; PyObj 2; PyObj 3]
  = (mkCH (Some (Suspended [PyObj 1; PyObj 2; PyObj 3])), []).
Proof.
  exact (proj1 (C6_inputs_resume_in_order r_echo [] (PyObj 0)
                  [PyObj 1; PyObj 2; PyObj 3] (fun s' v => I))).
Defined.

Lemma dispatch_calls {S} (step : S -> resume -> outcome S) self ev :
  snd (fst (dispatch step self ev)) = [] \/
  exists c d, ev = EvInput c d /\ snd (fst (dispatch step self ev)) = [Close c].
Proof.
  destruct ev as [c d|c r|c e]; cbn [dispatch].
  - destruct (handle_input_calls step self c d) as [H|[H _]]; [left|right]; eauto.
  - left. apply handle_close_no_calls.
  - left. apply handle_exception_no_calls.
Qed.

Lemma run_calls {S} (step : S -> resume -> outcome S) self evs :
  exists trs, snd (run step self evs) = concat trs /\
    Forall2 (fun ev tr => tr = [] \/ exists c d, ev = EvInput c d /\ tr = [Close c])
      evs trs.
Proof.
  revert self. induction evs as [|ev evs IH]; intros self.
  - exists []. split; [reflexivity|constructor].
  - cbn [run].
    pose proof (dispatch_calls step self ev) as Hd.
    destruct (dispatch step self ev) as [[self' tr] r].
    destruct (IH self') as [trs [Htrs Hall]].
    destruct (run step self' evs) as [self'' tr'].
    exists (tr :: trs). cbn in Hd, Htrs |- *. split; [congruence|].
    constructor; assumption.
Qed.

(** Delivering events one list after another is delivering the
    concatenated list. *)
Lemma run_app :
  forall {S} (step : S -> resume -> outcome S) self evs1 evs2,
    run step self (evs1 ++ evs2)
    = let (self', tr1) := run step self evs1 in
      let (self'', tr2) := run step self' evs2 in
      (self'', tr1 ++ tr2).
Proof.
  intros S step self evs1. revert self.
  induction evs1 as [|ev evs1 IH]; intros self evs2.
  - cbn [app run]. destruct (run step self evs2); reflexivity.
  - cbn [app run]. destruct (dispatch step self ev) as [[self' tr] r].
    rewrite IH. destruct (run step self' evs1) as [s1 t1].
    destruct (run step s1 evs2) as [s2 t2].
    rewrite app_assoc. reflexivity.
Qed.

(** C8 as stated fails: with [r_once], the first input
    ends the routine and closes the connection; a second input finds the
    generator exhausted, [send] raises StopIteration again and [close()] is
    called a second time although the routine did not complete then. *)
Lemma C8_second_close_after_exhaustion :
  session r_once 0 (PyObj 0) [EvInput (PyObj 0) (PyObj 1); EvInput (PyObj 0) (PyObj 2)]
  = (mkCH (Some Exhausted), [SetHandler (PyObj 0); Close (PyObj 0); Close (PyObj 0)]).
Proof. reflexivity. Qed.

Lemma session_app {S} (step : S -> resume -> outcome S) s0 c0 evs1 evs2 :
  session step s0 c0 (evs1 ++ evs2)
  = let (self1, tr1) := session step s0 c0 evs1 in
    let (self2, tr2) := run step self1 evs2 in
    (self2, tr1 ++ tr2).
Proof.
  unfold session.
  destruct (ConnectionHandler_init step (Suspended s0) c0) as [[self tr0] r].
  rewrite run_app. destruct (run step self evs1) as [s1 t1].
  destruct (run step s1 evs2) as [s2 t2]. rewrite app_assoc. reflexivity.
Qed.

Lemma handle_input_close_iff {S} (step : S -> resume -> outcome S) self c d :
  snd (fst (handle_input step self c d)) = [Close c] <->
  exists g g', gen self = Some g /\ gen_send step g d = (g', Exn StopIteration).
Proof.
  unfold handle_input, lookup_gen.
  destruct (gen self) as [g|].
  2:{ split; [discriminate|intros (? & ? & Hx & _); discriminate]. }
  destruct (gen_send step g d) as [g' [y|e]] eqn:Hs.
  - split; [discriminate|].
    intros (g1 & g2 & Hg & Hs'). injection Hg as <-. congruence.
  - destruct e; cbn;
      try (split; [discriminate|];
           intros (g1 & g2 & Hg & Hs'); injection Hg as <-; congruence).
    split; [intros _; eauto|reflexivity].
Qed.

(** C8 (amended): along any sequence of events after construction, the only
    calls the handler makes on connections are [setHandler], at most once,
    at construction and on the construction connection, and [close()], at
    most once per input event and on that event's connection (close and
    exception events make no call).  An input event calls [close()] exactly
    when the generator's [send] raises StopIteration, whether the routine
    ends on that input or had already finished, so [close()] can be called
    more than once. *)
Theorem C8_calls_in_any_session :
  forall {S} (step : S -> resume -> outcome S) (s0 : S) (c0 : pyobj)
         (evs : list event),
    (exists tr0 trs,
      snd (session step s0 c0 evs) = tr0 ++ concat trs /\
      (tr0 = [] \/ tr0 = [SetHandler c0]) /\
      Forall2 (fun ev tr => tr = [] \/ exists c d, ev = EvInput c d /\ tr = [Close c])
        evs trs) /\
    (forall evs1 c d evs2,
      let self := fst (session step s0 c0 evs1) in
      let '(self', tr, _) := handle_input step self c d in
      snd (session step s0 c0 (evs1 ++ EvInput c d :: evs2))
        = snd (session step s0 c0 evs1) ++ tr ++ snd (run step self' evs2) /\
      (tr = [Close c] <->
       exists g g', gen self = Some g /\ gen_send step g d = (g', Exn StopIteration))).
Proof.
  intros S step s0 c0 evs. split.
  - unfold session.
    pose proof (ConnectionHandler_init_calls step (Suspended s0) c0) as Hi.
    destruct (ConnectionHandler_init step (Suspended s0) c0) as [[self tr0] r].
    destruct (run_calls step self evs) as [trs [Htrs Hall]].
    destruct (run step self evs) as [self' tr'].
    exists tr0, trs. cbn in Hi, Htrs |- *. subst tr'. auto.
  - intros evs1 c d evs2. cbv zeta. rewrite session_app.
    pose proof (handle_input_close_iff step (fst (session step s0 c0 evs1)) c d)
      as Hiff.
    destruct (session step s0 c0 evs1) as [self1 tr1].
    cbn [fst snd run dispatch] in Hiff |- *.
    destruct (handle_input step self1 c d) as [[self' tr] r].
    destruct (run step self' evs2) as [s3 t3].
    cbn in Hiff |- *. split; [reflexivity|exact Hiff].
Qed.

(** C9: when the routine returns on its priming [next()], the constructor
    returns normally without assigning [gen]; delivering any input, close or
    exception event to that handler then raises AttributeError (the lookup
    of [self.gen]) and makes no call. *)
Theorem C9_no_gen_after_priming_stop :
  forall {S} (step : S -> resume -> outcome S) (s0 : S) (c0 : pyobj),
    step s0 (RSend PyNone) = Return ->
    let '(self, tr, r) := ConnectionHandler_init step (Suspended s0) c0 in
    r = Ok tt /\ tr = [] /\ gen self = None /\
    forall c d reason e,
      handle_input step self c d = (self, [], Exn AttributeError) /\
      handle_close step self c reason = (self, [], Exn AttributeError) /\
      handle_exception step self c e = (self, [], Exn AttributeError).
Proof.
  intros S step s0 c0 H.
  unfold ConnectionHandler_init, gen_next, gen_send, gen_resume.
  rewrite H. repeat split.
Qed.

Lemma C9_no_gen_after_priming_stop_witness :
  r_immediate 0 (RSend PyNone) = Return /\
  handle_close r_immediate (mkCH None) (PyObj 0) (PyObj 1)
    = (mkCH None, [], Exn AttributeError).
Proof.
  split; [reflexivity|].
  exact (proj1 (proj2 (proj2 (proj2 (proj2
          (C9_no_gen_after_priming_stop r_immediate 0 (PyObj 0) eq_refl)))
          (PyObj 0) (PyObj 2) (PyObj 1) (Error 0)))).
Defined.

(** C10: the handler keeps no connection (the instance built on [c0] is the
    one built on any other connection); when the routine ends on an input
    event that comes with connection [c1], [close()] is called on [c1], not
    on the construction connection [c0]. *)
Theorem C10_close_on_event_connection :
  forall {S} (step : S -> resume -> outcome S) (s0 s1 : S) (y : pyobj)
         (c0 c1 data : pyobj),
    step s0 (RSend PyNone) = Yield y s1 ->
    step s1 (RSend data) = Return ->
    session step s0 c0 [EvInput c1 data]
      = (mkCH (Some Exhausted), [SetHandler c0; Close c1]) /\
    (forall g c c', fst (fst (ConnectionHandler_init step g c))
                    = fst (fst (ConnectionHandler_init step g c'))).
Proof.
  intros S step s0 s1 y c0 c1 data H0 H1. split.
  - unfold session, ConnectionHandler_init, gen_next, gen_send, gen_resume.
    rewrite H0. cbn [run dispatch].
    unfold handle_input, lookup_gen, gen_send, gen_resume; cbn [gen].
    rewrite H1. reflexivity.
  - intros g c c'. unfold ConnectionHandler_init.
    destruct (gen_next step g) as [g' [v|e]]; [reflexivity|destruct e; reflexivity].
Qed.

Lemma C10_close_on_event_connection_witness :
  session r_once 0 (PyObj 0) [EvInput (PyObj 1) (PyObj 5)]
  = (mkCH (Some Exhausted), [SetHandler (PyObj 0); Close (PyObj 1)]).
Proof.
  exact (proj1 (C10_close_on_event_connection r_once 0 1 PyNone
                  (PyObj 0) (PyObj 1) (PyObj 5) eq_refl eq_refl)).
Defined.

(** ** Further properties of the module *)

(** Without an adapter, calling a [Handler] with [pre ++ [c]] passes the
    arguments unchanged to the generator function and builds the
    [ConnectionHandler] on [c]; no adapter is called. *)
Theorem Handler_call_no_adapter :
  forall {S} (step : S -> resume -> outcome S) (f : list pyobj -> S)
         (pre : list pyobj) (c : pyobj),
    Handler_call step (mkHandler f None) (pre ++ [c])
    = let (tr, r) := new_ConnectionHandler step (Suspended (f (pre ++ [c]))) c in
      (CallFunc (pre ++ [c]) :: tr, r).
Proof.
  intros S step f pre c. unfold Handler_call; cbn [connection_adapter func].
  rewrite py_last_snoc. destruct (new_ConnectionHandler _ _ _); reflexivity.
Qed.

(** The constructor, case by case on the priming step: a [yield] stores the
    generator and registers with the connection; a return or an explicit
    StopIteration leaves the instance without [gen] and returns normally;
    any other exception propagates out of the constructor, with no call
    made. *)
Theorem ConnectionHandler_init_cases :
  forall {S} (step : S -> resume -> outcome S) (s0 : S) (c : pyobj),
    ConnectionHandler_init step (Suspended s0) c
    = match step s0 (RSend PyNone) with
      | Yield _ s => (mkCH (Some (Suspended s)), [SetHandler c], Ok tt)
      | Return | Raise StopIteration => (mkCH None, [], Ok tt)
      | Raise e => (mkCH None, [], Exn e)
      end.
Proof.
  intros S step s0 c.
  unfold ConnectionHandler_init, gen_next, gen_send, gen_resume.
  destruct (step s0 (RSend PyNone)) as [y s| |[]]; reflexivity.
Qed.

(** [handle_input] on a suspended routine, case by case: a [yield] keeps it
    suspended; a return, or a StopIteration the routine raises itself,
    closes the event's connection and returns normally; any other exception
    propagates with no call made.  The generator is exhausted after any exit. *)
Theorem handle_input_cases :
  forall {S} (step : S -> resume -> outcome S) (s : S) (c d : pyobj),
    handle_input step (mkCH (Some (Suspended s))) c d
    = match step s (RSend d) with
      | Yield _ s' => (mkCH (Some (Suspended s')), [], Ok tt)
      | Return | Raise StopIteration => (mkCH (Some Exhausted), [Close c], Ok tt)
      | Raise e => (mkCH (Some Exhausted), [], Exn e)
      end.
Proof.
  intros S step s c d.
  unfold handle_input, lookup_gen, gen_send, gen_resume; cbn [gen].
  destruct (step s (RSend d)) as [y s'| |[]]; reflexivity.
Qed.

(** Once the routine has finished, the handler stays finished: every input
    event closes its connection and returns normally, every close event
    returns normally with no call, and every exception event raises the
    delivered exception back to the caller. *)
Theorem events_after_routine_end :
  forall {S} (step : S -> resume -> outcome S) (evs : list event),
    run step (mkCH (Some Exhausted)) evs
    = (mkCH (Some Exhausted),
       flat_map (fun ev => match ev with EvInput c _ => [Close c] | _ => [] end) evs) /\
    (forall c d, handle_input step (mkCH (Some Exhausted)) c d
                 = (mkCH (Some Exhausted), [Close c], Ok tt)) /\
    (forall c r, handle_close step (mkCH (Some Exhausted)) c r
                 = (mkCH (Some Exhausted), [], Ok tt)) /\
    (forall c e, handle_exception step (mkCH (Some Exhausted)) c e
                 = (mkCH (Some Exhausted), [], Exn e)).
Proof.
  intros S step evs. split; [|split; [|split]]; try reflexivity.
  induction evs as [|[c d|c r|c e] evs IH]; [reflexivity| | |];
    cbn [run dispatch flat_map];
    unfold handle_input, handle_close, handle_exception, lookup_gen,
      gen_send, gen_throw; cbn -[run];
    rewrite IH; reflexivity.
Qed.

(** Whether the instance has a [gen] attribute never changes under event
    delivery: a handler whose priming stopped never gains one, an active
    handler never loses it. *)
Theorem run_keeps_gen_attribute :
  forall {S} (step : S -> resume -> outcome S) self evs,
    gen (fst (run step self evs)) = None <-> gen self = None.
Proof.
  intros S step self evs. revert self.
  induction evs as [|ev evs IH]; intros self; [reflexivity|].
  cbn [run].
  assert (Hd : gen (fst (fst (dispatch step self ev))) = None <-> gen self = None).
  { destruct ev as [c d|c r|c e]; cbn [dispatch].
    - unfold handle_input, lookup_gen.
      destruct (gen self) as [g|] eqn:Hg; [|cbn; rewrite Hg; tauto].
      destruct (gen_send step g d) as [g' [y|[]]]; cbn; split; discriminate.
    - unfold handle_close, lookup_gen.
      destruct (gen self) as [g|] eqn:Hg; [|cbn; rewrite Hg; tauto].
      destruct (gen_throw step g (GeneratorExit r)) as [g' [y|[]]];
        cbn; split; discriminate.
    - unfold handle_exception, lookup_gen.
      destruct (gen self) as [g|] eqn:Hg; [|cbn; rewrite Hg; tauto].
      destruct (gen_throw step g e) as [g' [y|[]]]; cbn; split; discriminate. }
  destruct (dispatch step self ev) as [[self' tr] r0].
  specialize (IH self'). destruct (run step self' evs) as [s2 t2].
  cbn in Hd, IH |- *. rewrite IH. exact Hd.
Qed.

(** If the routine does not reach a [yield] on priming, the handler is never
    registered and no event delivered to it makes any call. *)
Theorem session_after_priming_stop :
  forall {S} (step : S -> resume -> outcome S) (s0 : S) (c0 : pyobj)
         (evs : list event),
    step s0 (RSend PyNone) = Return ->
    session step s0 c0 evs = (mkCH None, []).
Proof.
  intros S step s0 c0 evs H. unfold session.
  assert (Hr : forall evs', run step (mkCH None) evs' = (mkCH None, [])).
  { induction evs' as [|[c d|c r|c e] evs' IH]; [reflexivity| | |];
      cbn [run dispatch];
      unfold handle_input, handle_close, handle_exception, lookup_gen;
      cbn -[run]; rewrite IH; reflexivity. }
  rewrite ConnectionHandler_init_cases, H. cbn -[run]. rewrite Hr. reflexivity.
Qed.

Lemma session_after_priming_stop_witness :
  session r_immediate 0 (PyObj 0)
    [EvInput (PyObj 0) (PyObj 1); EvClose (PyObj 0) PyNone]
  = (mkCH None, []).
Proof.
  exact (session_after_priming_stop r_immediate 0 (PyObj 0) _ eq_refl).
Defined.
